(** * ml_microservices_lab: the input logger (service_a) and the toy model
      (service_b), embedded from [service_a/main.py] and [service_b/main.py].

    Layout: the Python runtime pieces both services lean on (JSON values,
    exceptions, a handler monad, binary64 floats, the [random] module), then
    the two services, then the properties. *)

From Stdlib Require Import ZArith QArith Qround Qpower Qabs Lqa Lia.
From Stdlib Require Import Bool String Ascii List DecimalString Floats.
Import ListNotations.

Set Warnings "-register-all,-inexact-float".

Local Open Scope Z_scope.
Local Open Scope string_scope.

(* ================================================================== *)
(** ** Python values, exceptions and the handler monad *)
(* ================================================================== *)

Module Py.

(** What [json.loads] / a JSON response body can hold.  A [str] is a
    sequence of characters, one [ascii] per character; a [dict] keeps its
    insertion order. *)
Inductive json : Type :=
| JNull
| JBool (b : bool)
| JInt (z : Z)
| JFloat (x : Q)
| JStr (s : string)
| JList (l : list json)
| JDict (items : list (string * json)).

(** [d.get(k)] on a dict given by its items. *)
Fixpoint dict_get (items : list (string * json)) (k : string) : option json :=
  match items with
  | [] => None
  | (k', v) :: rest => if String.eqb k' k then Some v else dict_get rest k
  end.

Definition get (v : json) (k : string) : option json :=
  match v with
  | JDict items => dict_get items k
  | _ => None
  end.

(** [len(s)] for a [str]. *)
Definition len (s : string) : Z := Z.of_nat (String.length s).

(** The subclasses of [requests.RequestException] that matter here.
    [JSONDecodeError] is [requests.exceptions.JSONDecodeError], which
    [Response.json()] raises from requests 2.27 on. *)
Inductive request_failure : Type :=
| ConnectionError
| Timeout
| TooManyRedirects
| JSONDecodeError
| OtherRequestException.

Inductive exn : Type :=
| RequestException (kind : request_failure) (text : string)
| ValueError (text : string)
| IndexError (text : string)
| HTTPException (status_code : Z) (detail : string).

(** [isinstance(e, requests.RequestException)], with [str(e)] when so. *)
Definition as_RequestException (e : exn) : option string :=
  match e with
  | RequestException _ text => Some text
  | _ => None
  end.

Inductive level : Type := INFO | ERROR.

Definition log_record : Type := (level * string)%type.

Inductive outcome (A : Type) : Type :=
| Returned (a : A)
| Raised (e : exn).
Arguments Returned {A} a.
Arguments Raised {A} e.

(** A computation over a world [W]: it returns or raises, and in both
    cases leaves the world it has changed so far. *)
Definition M (W A : Type) : Type := W -> outcome A * W.

Definition ret {W A} (a : A) : M W A := fun w => (Returned a, w).

Definition raise {W A} (e : exn) : M W A := fun w => (Raised e, w).

Definition bind {W A B} (c : M W A) (k : A -> M W B) : M W B :=
  fun w =>
    match c w with
    | (Returned a, w') => k a w'
    | (Raised e, w') => (Raised e, w')
    end.

(** [try: body  except requests.RequestException as e: handler(str(e))];
    any other exception passes through. *)
Definition try_except_RequestException {W A}
    (body : M W A) (handler : string -> M W A) : M W A :=
  fun w =>
    match body w with
    | (Returned a, w') => (Returned a, w')
    | (Raised e, w') =>
        match as_RequestException e with
        | Some text => handler text w'
        | None => (Raised e, w')
        end
    end.

Definition returned {A W} (r : outcome A * W) : Prop :=
  exists a, fst r = Returned a.

Definition failed {A W} (r : outcome A * W) : Prop :=
  exists e, fst r = Raised e.

End Py.

Import Py.

Declare Scope py_scope.
Delimit Scope py_scope with py.
Notation "x <- c ;; k" := (bind c (fun x => k))
  (at level 61, c at next level, right associativity) : py_scope.
Notation "c ;; k" := (bind c (fun _ => k))
  (at level 61, right associativity) : py_scope.
Local Open Scope py_scope.

(* ================================================================== *)
(** ** Python floats: IEEE 754 binary64, round to nearest, ties to even *)
(* ================================================================== *)

(** A float is held by its exact value, a rational; every operation
    computes the exact result and rounds it to the nearest binary64 value.
    Infinities and NaN do not arise: every quantity of these services lies
    within [-100, 100]. *)
Module F64.

Local Open Scope Q_scope.

Definition float : Type := Q.

(** Nearest integer, a tie going to the even neighbour. *)
Definition rne (q : Q) : Z :=
  let f := Qfloor q in
  match Qcompare (q - inject_Z f) (1 # 2) with
  | Lt => f
  | Gt => (f + 1)%Z
  | Eq => if Z.even f then f else (f + 1)%Z
  end.

Definition pow2 (e : Z) : Q := Qpower 2 e.

(** [floor (log2 q)] for [q > 0]. *)
Definition fl2 (q : Q) : Z :=
  let l := (Z.log2 (Qnum q) - Z.log2 (Zpos (Qden q)))%Z in
  if Qle_bool (pow2 l) q then l else (l - 1)%Z.

(** 53 significant bits, least exponent -1074 (gradual underflow). *)
Definition b64_round_pos (q : Q) : Q :=
  let e := Z.max (fl2 q - 52) (-1074) in
  inject_Z (rne (q / pow2 e)) * pow2 e.

Definition b64_round (q : Q) : float :=
  match Qnum q with
  | Z0 => 0
  | Zpos _ => b64_round_pos q
  | Zneg _ => - b64_round_pos (- q)
  end.

(** A decimal literal of the program text, such as [0.7]. *)
Definition literal (q : Q) : float := b64_round q.

Definition fadd (x y : float) : float := b64_round (x + y).
Definition fsub (x y : float) : float := b64_round (x - y).
Definition fmul (x y : float) : float := b64_round (x * y).

Definition fle (x y : float) : Prop := x <= y.

(** [round(x, ndigits)] for a float and [ndigits >= 0]: the decimal with
    [ndigits] places nearest to the exact value of [x] (ties to even),
    converted back to a float. *)
Definition round (x : float) (ndigits : nat) : float :=
  let s := inject_Z (10 ^ Z.of_nat ndigits) in
  b64_round (inject_Z (rne (x * s)) / s).

Definition decimal (z : Z) : string := NilZero.string_of_uint (N.to_uint (Z.to_N z)).

Fixpoint zeros (n : nat) : string :=
  match n with
  | O => EmptyString
  | S n' => String "0" (zeros n')
  end.

(** [format(x, ".{prec}f")]: the exact value of [x] rounded to [prec]
    decimal places (ties to even), written in fixed notation. *)
Definition format_f (x : float) (prec : nat) : string :=
  let s := (10 ^ Z.of_nat prec)%Z in
  let t := rne (Qabs x * inject_Z s) in
  let whole := decimal (t / s) in
  let frac := decimal (t mod s) in
  let sign := match Qnum x with Zneg _ => "-"%string | _ => EmptyString end in
  match prec with
  | O => (sign ++ whole)%string
  | _ => (sign ++ whole ++ "." ++ zeros (prec - String.length frac) ++ frac)%string
  end.

(** The exact value of a machine float of Rocq's kernel, to compare the
    model above with true binary64 arithmetic. *)
Definition Q_of_SF (f : SpecFloat.spec_float) : option Q :=
  match f with
  | SpecFloat.S754_zero _ => Some 0
  | SpecFloat.S754_finite s m e =>
      Some ((if s then -1 else 1) * inject_Z (Zpos m) * pow2 e)
  | _ => None
  end.

Definition Q_of_prim (f : PrimFloat.float) : option Q :=
  Q_of_SF (FloatOps.Prim2SF f).

Definition same_value (f : PrimFloat.float) (x : float) : bool :=
  match Q_of_prim f with
  | Some q => Qeq_bool q x
  | None => false
  end.

Arguments rne : simpl never.
Arguments pow2 : simpl never.
Arguments b64_round : simpl never.
Arguments round : simpl never.
Arguments format_f : simpl never.

End F64.

(* ================================================================== *)
(** ** The [random] module *)
(* ================================================================== *)

(** The generator is a source of raw draws read one after the other; which
    draws come up is for the environment to say.  [_randbelow n] can give
    any index below [n] and [random()] any multiple of [2^-53] in [0, 1),
    as in CPython. *)
Module Random.

Record state : Type := { entropy : nat -> N; cursor : nat }.

Definition next (g : state) : N * state :=
  (entropy g (cursor g), {| entropy := entropy g; cursor := S (cursor g) |}).

Definition _randbelow (n : N) (g : state) : N * state :=
  let (x, g') := next g in ((x mod n)%N, g').

Definition random (g : state) : F64.float * state :=
  let (x, g') := next g in
  (Qmake (Z.of_N (x mod 2 ^ 53)%N) (2 ^ 53)%positive, g').

(** [random.choice(seq)]: [seq[self._randbelow(len(seq))]], an empty
    [seq] raising [IndexError]. *)
Definition choice {A} (seq : list A) (g : state) : outcome A * state :=
  match seq with
  | [] => (Raised (IndexError "Cannot choose from an empty sequence"), g)
  | _ :: _ =>
      let (i, g') := _randbelow (N.of_nat (List.length seq)) g in
      match nth_error seq (N.to_nat i) with
      | Some x => (Returned x, g')
      | None => (Raised (IndexError "list index out of range"), g')
      end
  end.

(** [random.uniform(a, b)]: [a + (b - a) * self.random()]. *)
Definition uniform (a b : F64.float) (g : state) : F64.float * state :=
  let (r, g') := random g in
  (F64.fadd a (F64.fmul (F64.fsub b a) r), g').

End Random.

(* ================================================================== *)
(** ** service_a/main.py: the input logger *)
(* ================================================================== *)

Module service_a.

Record InputData : Type := { data : string; forward_to_model : bool }.

(** [forward_to_model: bool = True]. *)
Definition InputData_default (d : string) : InputData :=
  {| data := d; forward_to_model := true |}.

Definition SERVICE_B_URL : string := "http://localhost:8001/predict".

(** One [requests.post(url, json=..., timeout=...)]. *)
Record http_call : Type := { url : string; json_arg : json; timeout : Z }.

(** What the program looks at in a [requests.Response]: the status code
    (never read by the program) and what [response.json()] gives. *)
Record Response : Type := { status_code : Z; json_method : outcome json }.

(** [requests.post] either raises a [RequestException] (connection
    refused, timeout, ...) or returns the response it received. *)
Inductive post_result : Type :=
| PostRaises (kind : request_failure) (text : string)
| PostReturns (response : Response).

(** The process and its surroundings: the log lines emitted so far, the
    outbound calls made so far, and how the network answers a call. *)
Record world : Type := {
  log : list log_record;
  sent : list http_call;
  network : http_call -> post_result
}.

Definition emit (l : level) (msg : string) : M world unit :=
  fun w => (Returned tt,
            {| log := (log w ++ [(l, msg)])%list; sent := sent w; network := network w |}).

Definition logger_info : string -> M world unit := emit INFO.
Definition logger_error : string -> M world unit := emit ERROR.

Definition requests_post (u : string) (j : json) (t : Z) : M world Response :=
  fun w =>
    let c := {| url := u; json_arg := j; timeout := t |} in
    let w' := {| log := log w; sent := (sent w ++ [c])%list; network := network w |} in
    match network w c with
    | PostRaises kind text => (Raised (RequestException kind text), w')
    | PostReturns r => (Returned r, w')
    end.

Definition response_json (r : Response) : M world json :=
  fun w => (json_method r, w).

Definition read_root : M world json :=
  ret (JDict [("service", JStr "Service A - Input Logger"); ("status", JStr "running")]).

Definition process_input (input_data : InputData) : M world json :=
  logger_info ("Received input: " ++ data input_data) ;;
  if forward_to_model input_data then
    try_except_RequestException
      (response <- requests_post SERVICE_B_URL
                     (JDict [("input", JStr (data input_data))]) 3 ;;
       body <- response_json response ;;
       ret (JDict [("status", JStr "Input logged successfully");
                   ("model_prediction", body)]))
      (fun e =>
         logger_error ("Failed to reach Service B: " ++ e) ;;
         raise (HTTPException 503 ("Service B is unavailable: " ++ e)))
  else
    ret (JDict [("status", JStr "Input logged successfully")]).

Definition health_check : M world json :=
  ret (JDict [("service", JStr "Service A"); ("status", JStr "healthy")]).

(** The call [process_input] makes for the text [d]. *)
Definition forward_call (d : string) : http_call :=
  {| url := SERVICE_B_URL; json_arg := JDict [("input", JStr d)]; timeout := 3 |}.

(** The outbound call fails at the transport level (refused, timed out,
    ...): [requests.post] raises instead of returning a response. *)
Definition transport_failure (w : world) (d : string) : Prop :=
  exists kind text, network w (forward_call d) = PostRaises kind text.

(** A response came back but its body does not decode as JSON. *)
Definition undecodable_body (w : world) (d : string) : Prop :=
  exists r e, network w (forward_call d) = PostReturns r /\ json_method r = Raised e.

End service_a.

(* ================================================================== *)
(** ** service_b/main.py: the toy model *)
(* ================================================================== *)

Module service_b.

Record PredictionRequest : Type := { input : string }.

(** An instance of [SimpleMlModel]: its one attribute. *)
Record SimpleMlModel : Type := { classes : list string }.

(** The dict [SimpleMlModel.predict] returns. *)
Record PredictionResult : Type := {
  class : string;
  confidence : F64.float;
  input_length : Z
}.

(** The dict the [/predict] handler returns. *)
Record PredictionResponse : Type := {
  prediction : PredictionResult;
  message : string
}.

(** The process: the log lines emitted so far, the state of the [random]
    module, and the module-level [model] object. *)
Record world : Type := {
  log : list log_record;
  rng : Random.state;
  model : SimpleMlModel
}.

Definition logger_info (msg : string) : M world unit :=
  fun w => (Returned tt,
            {| log := (log w ++ [(INFO, msg)])%list; rng := rng w; model := model w |}).

(** Run a function of the [random] module on the generator's state. *)
Definition with_rng {A} (f : Random.state -> outcome A * Random.state) : M world A :=
  fun w =>
    let (r, g') := f (rng w) in
    (r, {| log := log w; rng := g'; model := model w |}).

Definition random_choice {A} (seq : list A) : M world A :=
  with_rng (Random.choice seq).

Definition random_uniform (a b : F64.float) : M world F64.float :=
  with_rng (fun g => let (x, g') := Random.uniform a b g in (Returned x, g')).

(** [SimpleMlModel.__init__]: the label list, and one log line. *)
Definition SimpleMlModel_init (l : list log_record) : SimpleMlModel * list log_record :=
  ({| classes := ["cat"; "dog"; "bird"; "fish"; "rabbit"] |},
   (l ++ [(INFO, "ML model initialized")])%list).

Definition SimpleMlModel_predict (self : SimpleMlModel) (input_text : string)
    : M world PredictionResult :=
  logger_info ("Making prediction for input: " ++ input_text) ;;
  predicted_class <- random_choice (classes self) ;;
  u <- random_uniform (F64.literal (7 # 10)) (F64.literal (99 # 100)) ;;
  let confidence := F64.round u 2 in
  ret {| class := predicted_class;
         confidence := confidence;
         input_length := len input_text |}.

(** Module import, [model = SimpleMlModel()]: the state the process serves
    its first request in, for a generator state [g]. *)
Definition startup (g : Random.state) : world :=
  let (m, l) := SimpleMlModel_init [] in
  {| log := l; rng := g; model := m |}.

Definition read_root : M world json :=
  ret (JDict [("service", JStr "Service B - ML Prediction"); ("status", JStr "running")]).

(** Reading the module-level name [model]. *)
Definition global_model : M world SimpleMlModel :=
  fun w => (Returned (model w), w).

Definition predict (request : PredictionRequest) : M world PredictionResponse :=
  logger_info ("Received prediction request with input: " ++ input request) ;;
  self <- global_model ;;
  prediction <- SimpleMlModel_predict self (input request) ;;
  ret {| prediction := prediction;
         message := "Predicted class: " ++ class prediction ++ " "
                    ++ "with "
                    ++ F64.format_f (F64.fmul (confidence prediction) (inject_Z 100)) 1
                    ++ "% confidence" |}.

Definition health_check : M world json :=
  ret (JDict [("service", JStr "Service B"); ("status", JStr "healthy")]).

(** The JSON body FastAPI sends for a returned dict. *)
Definition PredictionResult_json (p : PredictionResult) : json :=
  JDict [("class", JStr (class p));
         ("confidence", JFloat (confidence p));
         ("input_length", JInt (input_length p))].

Definition PredictionResponse_json (r : PredictionResponse) : json :=
  JDict [("prediction", PredictionResult_json (prediction r));
         ("message", JStr (message r))].

(** The routes of the application and what serving a request does to the
    process. *)
Inductive request : Type :=
| GET_root
| POST_predict (body : PredictionRequest)
| GET_health.

Definition handle (r : request) : M world json :=
  match r with
  | GET_root => read_root
  | POST_predict body => resp <- predict body ;; ret (PredictionResponse_json resp)
  | GET_health => health_check
  end.

Definition serve (w : world) (r : request) : world := snd (handle r w).

(** The process after it has served the requests [rs], oldest first. *)
Definition after (g : Random.state) (rs : list request) : world :=
  fold_left serve rs (startup g).

(** The five labels of the program text. *)
Definition labels : list string := ["cat"; "dog"; "bird"; "fish"; "rabbit"].

End service_b.

(* ================================================================== *)
(** ** Sample surroundings, used to run the services on concrete inputs *)
(* ================================================================== *)

Module Sample.

(** A generator whose [n]-th raw draw is [n]. *)
Definition counting : Random.state :=
  {| Random.entropy := N.of_nat; Random.cursor := O |}.

(** A generator stuck on the largest 53-bit draw. *)
Definition saturated : Random.state :=
  {| Random.entropy := fun _ => (2 ^ 53 - 1)%N; Random.cursor := O |}.

(** A fresh front process facing the network [n]. *)
Definition front (n : service_a.http_call -> service_a.post_result) : service_a.world :=
  {| service_a.log := []; service_a.sent := []; service_a.network := n |}.

(** Nothing listens on port 8001. *)
Definition refusing (_ : service_a.http_call) : service_a.post_result :=
  service_a.PostRaises ConnectionError "Connection refused".

(** The peer accepts the connection and never answers. *)
Definition stalling (_ : service_a.http_call) : service_a.post_result :=
  service_a.PostRaises Timeout "Read timed out. (read timeout=3)".

(** The peer answers with the given status code and JSON body. *)
Definition answering (code : Z) (body : json) (_ : service_a.http_call)
    : service_a.post_result :=
  service_a.PostReturns
    {| service_a.status_code := code; service_a.json_method := Returned body |}.

(** The peer answers 200 with a body that is not JSON; [response.json()]
    raises [requests.exceptions.JSONDecodeError]. *)
Definition garbled (_ : service_a.http_call) : service_a.post_result :=
  service_a.PostReturns
    {| service_a.status_code := 200;
       service_a.json_method :=
         Raised (RequestException JSONDecodeError
                   "Expecting value: line 1 column 1 (char 0)") |}.

(** The integers [a], [a+1], ..., [n] of them. *)
Definition integers (a : Z) (n : nat) : list Z :=
  map (fun i => a + Z.of_nat i) (seq 0 n).

End Sample.

(* ================================================================== *)
(** ** Runs of several requests *)
(* ================================================================== *)

(** The routes of service_a ([@app.get("/")], [@app.post("/process")],
    [@app.get("/health")]) and what a run of requests leaves behind. *)
Module front_run.

Import service_a.

Inductive request : Type :=
| GET_root
| POST_process (body : InputData)
| GET_health.

Definition handle (r : request) : M world json :=
  match r with
  | GET_root => read_root
  | POST_process body => process_input body
  | GET_health => health_check
  end.

Definition serve (w : world) (r : request) : world := snd (handle r w).

(** The process that started in [w], after it has served [rs], oldest
    first. *)
Definition after (w : world) (rs : list request) : world := fold_left serve rs w.

(** The calls a run of requests asks for: one for each [/process] request
    that has forwarding on, in the order of the requests. *)
Fixpoint forwards (rs : list request) : list http_call :=
  match rs with
  | [] => []
  | POST_process body :: rest =>
      if forward_to_model body
      then forward_call (data body) :: forwards rest
      else forwards rest
  | _ :: rest => forwards rest
  end.

(** The peer answers 200 with a body that is not JSON, and
    [response.json()] raises the [ValueError] of the [json] module, as with
    requests before 2.27. *)
Definition garbled_legacy (_ : http_call) : post_result :=
  PostReturns
    {| status_code := 200;
       json_method := Raised (ValueError "Expecting value: line 1 column 1 (char 0)") |}.

End front_run.

(** Runs of service_b. *)
Module back_run.

Import service_b.

(** The log lines the source emits while serving one request. *)
Definition log_lines (r : request) : list log_record :=
  match r with
  | POST_predict body =>
      [(INFO, "Received prediction request with input: " ++ input body);
       (INFO, "Making prediction for input: " ++ input body)]
  | _ => []
  end.

Definition is_predict (r : request) : bool :=
  match r with
  | POST_predict _ => true
  | _ => false
  end.

(** How many [/predict] requests a run holds. *)
Definition predictions (rs : list request) : nat := List.length (filter is_predict rs).

(** The generator after the two calls one prediction makes,
    [random.choice] over the five labels then [random.uniform(0.7, 0.99)]. *)
Definition drawn (g : Random.state) : Random.state :=
  snd (Random.uniform (F64.literal (7 # 10)) (F64.literal (99 # 100))
         (snd (Random.choice labels g))).

(** How many lines of a log carry the text [msg]. *)
Definition occurrences (msg : string) (l : list log_record) : nat :=
  List.length (filter (fun r => String.eqb (snd r) msg) l).

(** A generator that reads its raw draws off a list. *)
Definition scripted (draws : list N) : Random.state :=
  {| Random.entropy := fun n => nth n draws 0%N; Random.cursor := O |}.

(** A raw draw that [random.uniform(0.7, 0.99)] turns into about [k/100]. *)
Definition draw_for (k : Z) : N :=
  Z.to_N (Z.min (2 ^ 53 - 1) ((k - 70) * 2 ^ 53 / 29)).

(** Two floats with the same numerator and denominator. *)
Definition same_float (x y : F64.float) : bool :=
  Z.eqb (Qnum x) (Qnum y) && Pos.eqb (Qden x) (Qden y).

(** A process whose model object has lost its labels. *)
Definition unlabelled (g : Random.state) : world :=
  {| log := []; rng := g; model := {| classes := [] |} |}.

End back_run.

(* ================================================================== *)
(** * Properties *)
(* ================================================================== *)

(** ** Binary64 rounding *)

Section Rounding.

Import F64.
Local Open Scope Q_scope.

(** The model agrees with the machine's binary64 arithmetic on the
    constants and operations the services use. *)
Example literal_0_7_machine : same_value 0.7%float (literal (7 # 10)) = true.
Proof. vm_compute. reflexivity. Qed.

Example literal_0_99_machine : same_value 0.99%float (literal (99 # 100)) = true.
Proof. vm_compute. reflexivity. Qed.

Example width_machine :
  same_value (0.99 - 0.7)%float (fsub (literal (99 # 100)) (literal (7 # 10))) = true.
Proof. vm_compute. reflexivity. Qed.

Example uniform_top_machine :
  same_value (0.7 + (0.99 - 0.7) * 0x1.fffffffffffffp-1)%float
    (fadd (literal (7 # 10))
       (fmul (fsub (literal (99 # 100)) (literal (7 # 10)))
          (Qmake (2 ^ 53 - 1) (2 ^ 53)))) = true.
Proof. vm_compute. reflexivity. Qed.

Example uniform_mid_machine :
  same_value (0.7 + (0.99 - 0.7) * 0x1.5555555555555p-2)%float
    (fadd (literal (7 # 10))
       (fmul (fsub (literal (99 # 100)) (literal (7 # 10)))
          (Qmake 0x15555555555555 (2 ^ 54)))) = true.
Proof. vm_compute. reflexivity. Qed.

Example hundredths_machine :
  forallb
    (fun k =>
       let f := PrimFloat.div (PrimFloat.of_uint63 (Uint63.of_Z k)) 100%float in
       same_value f (literal (k # 100))
       && same_value (PrimFloat.mul f 100%float) (fmul (literal (k # 100)) (inject_Z 100)))
    (Sample.integers 0 101) = true.
Proof. vm_compute. reflexivity. Qed.

Example uniform_sweep_machine :
  forallb
    (fun i =>
       let m := (i * 180143985094819 + 12345)%Z in
       let r := PrimFloat.mul (PrimFloat.of_uint63 (Uint63.of_Z m)) 0x1p-53%float in
       same_value (0.7 + (0.99 - 0.7) * r)%float
         (fadd (literal (7 # 10))
            (fmul (fsub (literal (99 # 100)) (literal (7 # 10))) (Qmake m (2 ^ 53)))))
    (Sample.integers 0 50) = true.
Proof. vm_compute. reflexivity. Qed.

Example underflow_machine :
  same_value (0x1p-1074 * 0.5)%float (fmul (pow2 (-1074)) (1 # 2))
  && same_value (0x1p-1074 * 1.5)%float (fmul (pow2 (-1074)) (3 # 2))
  && same_value (1 / 3)%float (literal (1 # 3)) = true.
Proof. vm_compute. reflexivity. Qed.

Example round_half_even : Qeq_bool (round (1 # 8) 2) (literal (12 # 100)) = true.
Proof. vm_compute. reflexivity. Qed.

Example round_2_675 : Qeq_bool (round (literal (2675 # 1000)) 2) (literal (267 # 100)) = true.
Proof. vm_compute. reflexivity. Qed.

Example format_f_56_99 : format_f (fmul (literal (57 # 100)) (inject_Z 100)) 1 = "57.0"%string.
Proof. vm_compute. reflexivity. Qed.

Example format_f_quarter : format_f (1 # 4) 1 = "0.2"%string.
Proof. vm_compute. reflexivity. Qed.

Example format_f_pads : format_f (100005 # 100000) 3 = "1.000"%string.
Proof. vm_compute. reflexivity. Qed.

End Rounding.

(** ** Concrete runs *)

Section Runs.

Example predict_hello_first_draws :
  fst (service_b.predict {| service_b.input := "hello" |}
         (service_b.startup Sample.counting))
  = Returned
      {| service_b.prediction :=
           {| service_b.class := "cat";
              service_b.confidence := F64.literal (7 # 10);
              service_b.input_length := 5 |};
         service_b.message := "Predicted class: cat with 70.0% confidence" |}.
Proof. vm_compute. reflexivity. Qed.

Example predict_hello_top_draws :
  fst (service_b.predict {| service_b.input := "hello" |}
         (service_b.startup Sample.saturated))
  = Returned
      {| service_b.prediction :=
           {| service_b.class := "dog";
              service_b.confidence := F64.literal (99 # 100);
              service_b.input_length := 5 |};
         service_b.message := "Predicted class: dog with 99.0% confidence" |}.
Proof. vm_compute. reflexivity. Qed.

Example predict_log_lines :
  service_b.log
    (service_b.after Sample.counting
       [service_b.GET_health; service_b.POST_predict {| service_b.input := "hi" |}])
  = [(INFO, "ML model initialized");
     (INFO, "Received prediction request with input: hi");
     (INFO, "Making prediction for input: hi")].
Proof. vm_compute. reflexivity. Qed.

Example process_refused :
  service_a.process_input (service_a.InputData_default "hi") (Sample.front Sample.refusing)
  = (Raised (HTTPException 503 "Service B is unavailable: Connection refused"),
     {| service_a.log := [(INFO, "Received input: hi");
                          (ERROR, "Failed to reach Service B: Connection refused")];
        service_a.sent := [service_a.forward_call "hi"];
        service_a.network := Sample.refusing |}).
Proof. reflexivity. Qed.

Example process_not_forwarded :
  service_a.process_input {| service_a.data := "hi"; service_a.forward_to_model := false |}
    (Sample.front Sample.refusing)
  = (Returned (JDict [("status", JStr "Input logged successfully")]),
     {| service_a.log := [(INFO, "Received input: hi")];
        service_a.sent := [];
        service_a.network := Sample.refusing |}).
Proof. reflexivity. Qed.

End Runs.

Section RoundingFacts.

Import F64.
Local Open Scope Q_scope.

(** [rne] moves its argument by at most one half. *)
Lemma rne_near q : q - (1 # 2) <= inject_Z (rne q) <= q + (1 # 2).
Proof.
  unfold rne.
  pose proof (Qfloor_le q) as Hlo.
  pose proof (Qlt_floor q) as Hhi.
  rewrite inject_Z_plus in Hhi. change (inject_Z 1) with 1 in Hhi.
  destruct (Qcompare (q - inject_Z (Qfloor q)) (1 # 2)) eqn:Hc.
  - apply Qeq_alt in Hc.
    destruct (Z.even (Qfloor q));
      [| rewrite inject_Z_plus; change (inject_Z 1) with 1]; lra.
  - apply Qlt_alt in Hc. lra.
  - apply Qgt_alt in Hc. rewrite inject_Z_plus. change (inject_Z 1) with 1. lra.
Qed.

Lemma pow2_pos e : 0 < pow2 e.
Proof. apply Qpower_0_lt. reflexivity. Qed.

Lemma pow2_add a b : pow2 (a + b) == pow2 a * pow2 b.
Proof. apply Qpower_plus. discriminate. Qed.

Lemma pow2_nonneg_Z n : (0 <= n)%Z -> pow2 n == inject_Z (2 ^ n).
Proof. intros H. unfold pow2. rewrite Zpower_Qpower by assumption. reflexivity. Qed.

(** [fl2 q] is the exponent of the binade of [q]:
    [2^(fl2 q) <= q < 2^(fl2 q + 1)]. *)
Lemma fl2_le q : 0 < q -> pow2 (fl2 q) <= q.
Proof.
  intros Hq. unfold fl2.
  set (a := Z.log2 (Qnum q)). set (b := Z.log2 (Z.pos (Qden q))).
  destruct (Qle_bool (pow2 (a - b)) q) eqn:Hb.
  - apply Qle_bool_iff. exact Hb.
  - clear Hb.
    assert (Hn : (0 < Qnum q)%Z).
    { destruct q as [n d]. unfold Qlt in Hq. simpl in *. lia. }
    assert (Ha : (0 <= a)%Z) by apply Z.log2_nonneg.
    assert (Hb : (0 <= b)%Z) by apply Z.log2_nonneg.
    destruct (Z.log2_spec (Qnum q) Hn) as [Hlo _]. fold a in Hlo.
    destruct (Z.log2_spec (Z.pos (Qden q)) (Pos2Z.is_pos _)) as [_ Hhi]. fold b in Hhi.
    replace (Z.succ b) with (b + 1)%Z in Hhi by lia.
    replace (a - b - 1)%Z with (a + - (b + 1))%Z by lia.
    rewrite pow2_add. unfold pow2 at 2. rewrite Qpower_opp. fold (pow2 (b + 1)).
    rewrite !pow2_nonneg_Z by lia.
    assert (Hpb : (0 < 2 ^ (b + 1))%Z) by (apply Z.pow_pos_nonneg; lia).
    apply Qle_shift_div_r.
    + rewrite <- (Zlt_Qlt 0). exact Hpb.
    + destruct q as [n d]. unfold Qle, Qmult, inject_Z. simpl in *.
      rewrite Pos.mul_1_r, Z.mul_1_r.
      apply Z.le_trans with (n * Z.pos d)%Z.
      * apply Z.mul_le_mono_nonneg_r; lia.
      * apply Z.mul_le_mono_nonneg_l; lia.
Qed.

Lemma fl2_gt q : 0 < q -> q < pow2 (fl2 q + 1).
Proof.
  intros Hq. unfold fl2.
  set (a := Z.log2 (Qnum q)). set (b := Z.log2 (Z.pos (Qden q))).
  destruct (Qle_bool (pow2 (a - b)) q) eqn:Hb.
  - clear Hb.
    assert (Hn : (0 < Qnum q)%Z).
    { destruct q as [n d]. unfold Qlt in Hq. simpl in *. lia. }
    assert (Ha : (0 <= a)%Z) by apply Z.log2_nonneg.
    assert (Hb : (0 <= b)%Z) by apply Z.log2_nonneg.
    destruct (Z.log2_spec (Qnum q) Hn) as [_ Hhi]. fold a in Hhi.
    destruct (Z.log2_spec (Z.pos (Qden q)) (Pos2Z.is_pos _)) as [Hlo _]. fold b in Hlo.
    replace (Z.succ a) with (a + 1)%Z in Hhi by lia.
    replace (a - b + 1)%Z with ((a + 1) + - b)%Z by lia.
    rewrite pow2_add. unfold pow2 at 2. rewrite Qpower_opp. fold (pow2 b).
    rewrite !pow2_nonneg_Z by lia.
    assert (Hpb : (0 < 2 ^ b)%Z) by (apply Z.pow_pos_nonneg; lia).
    apply Qlt_shift_div_l.
    + rewrite <- (Zlt_Qlt 0). exact Hpb.
    + destruct q as [n d]. unfold Qlt, Qmult, inject_Z. simpl in *.
      rewrite Pos.mul_1_r, Z.mul_1_r.
      apply Z.lt_le_trans with (2 ^ (a + 1) * 2 ^ b)%Z.
      * apply Z.mul_lt_mono_pos_r; lia.
      * apply Z.mul_le_mono_nonneg_l; lia.
  - replace (a - b - 1 + 1)%Z with (a - b)%Z by lia.
    apply Qnot_le_lt. intros H. apply Qle_bool_iff in H. congruence.
Qed.

(** In the normal range the scaled value has exactly 53 significant bits
    before rounding. *)
Lemma scaled_mantissa q :
  0 < q -> pow2 52 <= q / pow2 (fl2 q - 52) /\ q / pow2 (fl2 q - 52) < pow2 53.
Proof.
  intros Hq. pose proof (pow2_pos (fl2 q - 52)) as HP. split.
  - apply Qle_shift_div_l; [exact HP |].
    rewrite <- pow2_add. replace (52 + (fl2 q - 52))%Z with (fl2 q) by lia.
    apply fl2_le. exact Hq.
  - apply Qlt_shift_div_r; [exact HP |].
    rewrite <- pow2_add. replace (53 + (fl2 q - 52))%Z with (fl2 q + 1)%Z by lia.
    apply fl2_gt. exact Hq.
Qed.

(** Rounding moves a value by at most half a unit in the last place: a
    relative error of [2^-53], or [2^-1075] in the subnormal range. *)
Lemma b64_round_pos_near q :
  0 < q ->
  q - (q * pow2 (-53) + pow2 (-1075)) <= b64_round_pos q
  /\ b64_round_pos q <= q + (q * pow2 (-53) + pow2 (-1075)).
Proof.
  intros Hq. unfold b64_round_pos.
  set (e := Z.max (fl2 q - 52) (-1074)).
  pose proof (pow2_pos e) as HP.
  pose proof (rne_near (q / pow2 e)) as [Hlo Hhi].
  assert (Hhalf : pow2 e * (1 # 2) <= q * pow2 (-53) + pow2 (-1075)).
  { pose proof (fl2_le q Hq) as Hf.
    pose proof (pow2_pos (-1075)) as He.
    pose proof (pow2_pos (-53)) as Hu.
    destruct (Z.max_spec (fl2 q - 52) (-1074)) as [[_ Hm] | [_ Hm]]; fold e in Hm; rewrite Hm.
    - assert (E : pow2 (-1074) * (1 # 2) == pow2 (-1075)) by (vm_compute; reflexivity).
      rewrite E. assert (0 <= q * pow2 (-53)) by (apply Qmult_le_0_compat; lra). lra.
    - replace (fl2 q - 52)%Z with (fl2 q + -52)%Z by lia. rewrite pow2_add.
      assert (E : pow2 (-52) * (1 # 2) == pow2 (-53)) by (vm_compute; reflexivity).
      rewrite <- Qmult_assoc, E.
      assert (pow2 (fl2 q) * pow2 (-53) <= q * pow2 (-53))
        by (apply Qmult_le_compat_r; lra).
      lra. }
  assert (Hy : q / pow2 e * pow2 e == q) by (field; lra).
  apply (Qmult_le_compat_r _ _ (pow2 e)) in Hlo; [| lra].
  apply (Qmult_le_compat_r _ _ (pow2 e)) in Hhi; [| lra].
  assert (E1 : (q / pow2 e - (1 # 2)) * pow2 e == q - pow2 e * (1 # 2)) by (rewrite <- Hy at 2; ring).
  assert (E2 : (q / pow2 e + (1 # 2)) * pow2 e == q + pow2 e * (1 # 2)) by (rewrite <- Hy at 2; ring).
  rewrite E1 in Hlo. rewrite E2 in Hhi.
  split; lra.
Qed.

Lemma b64_round_near q :
  0 <= q ->
  q - (q * pow2 (-53) + pow2 (-1075)) <= b64_round q
  /\ b64_round q <= q + (q * pow2 (-53) + pow2 (-1075)).
Proof.
  intros Hq. unfold b64_round.
  destruct q as [[| p | p] d]; cbn [Qnum].
  - assert (E : 0 # d == 0) by reflexivity. rewrite E.
    pose proof (pow2_pos (-1075)). split; lra.
  - apply b64_round_pos_near. reflexivity.
  - exfalso. unfold Qle in Hq. simpl in Hq. lia.
Qed.

(** [0.7 + (0.99 - 0.7) * r] for any [r = m / 2^53] in [0, 1). *)
Lemma uniform_range m :
  (0 <= m < 2 ^ 53)%Z ->
  let x := fadd (literal (7 # 10))
             (fmul (fsub (literal (99 # 100)) (literal (7 # 10))) (m # 2 ^ 53)) in
  (699 # 1000) <= x /\ x <= (991 # 1000).
Proof.
  intros Hm x. subst x. unfold fadd, fmul.
  set (lo := literal (7 # 10)).
  set (d := fsub (literal (99 # 100)) lo).
  set (r := m # 2 ^ 53).
  assert (Hr : 0 <= r /\ r <= 1).
  { unfold r, Qle. simpl. lia. }
  assert (Hd : (28 # 100) <= d /\ d <= (2901 # 10000)).
  { unfold d. split; apply Qle_bool_iff; vm_compute; reflexivity. }
  assert (Hlo : (6999 # 10000) <= lo /\ lo <= (7 # 10)).
  { split; apply Qle_bool_iff; vm_compute; reflexivity. }
  assert (Hu : pow2 (-53) <= (1 # 1000000) /\ 0 < pow2 (-53)).
  { split; [apply Qle_bool_iff; vm_compute; reflexivity | apply pow2_pos]. }
  assert (He : pow2 (-1075) <= (1 # 1000000) /\ 0 < pow2 (-1075)).
  { split; [apply Qle_bool_iff; vm_compute; reflexivity | apply pow2_pos]. }
  assert (Hdr : 0 <= d * r /\ d * r <= (2901 # 10000)).
  { split; [apply Qmult_le_0_compat; lra |].
    apply Qle_trans with (d * 1); [apply Qmult_le_l; lra | lra]. }
  pose proof (b64_round_near (d * r) (proj1 Hdr)) as [Hp1 Hp2].
  set (p := b64_round (d * r)) in *.
  set (u := pow2 (-53)) in *. set (eta := pow2 (-1075)) in *.
  assert (Hdru : 0 <= d * r * u /\ d * r * u <= (1 # 1000000)).
  { split; [apply Qmult_le_0_compat; lra |].
    apply Qle_trans with (1 * u); [apply Qmult_le_compat_r; lra | lra]. }
  assert (Hs : 0 <= lo + p) by lra.
  pose proof (b64_round_near (lo + p) Hs) as [Hx1 Hx2].
  fold u eta in Hx1, Hx2.
  assert (Hsu : 0 <= (lo + p) * u /\ (lo + p) * u <= (2 # 1000000)).
  { split; [apply Qmult_le_0_compat; lra |].
    apply Qle_trans with (2 * u); [apply Qmult_le_compat_r; lra | lra]. }
  split; lra.
Qed.

Lemma div_100 k : inject_Z k / inject_Z 100 = k # 100.
Proof. unfold Qdiv, Qmult, Qinv, inject_Z. cbn [Qnum Qden]. rewrite Z.mul_1_r. reflexivity. Qed.

(** Rounding such a value to two places gives the float written [0.kk]. *)
Lemma round2_hundredths x :
  (699 # 1000) <= x -> x <= (991 # 1000) ->
  exists k, (70 <= k <= 99)%Z /\ round x 2 = literal (k # 100).
Proof.
  intros Hlo Hhi. unfold round.
  change (inject_Z (10 ^ Z.of_nat 2)) with (inject_Z 100).
  exists (rne (x * inject_Z 100)). split.
  - pose proof (rne_near (x * inject_Z 100)) as [H1 H2].
    change (inject_Z 100) with 100 in H1, H2.
    assert (L : inject_Z 69 < inject_Z (rne (x * inject_Z 100)))
      by (change (inject_Z 69) with 69; change (inject_Z 100) with 100; lra).
    assert (U : inject_Z (rne (x * inject_Z 100)) < inject_Z 100)
      by (change (inject_Z 100) with 100 at 2; change (inject_Z 100) with 100; lra).
    rewrite <- Zlt_Qlt in L, U. lia.
  - rewrite div_100. reflexivity.
Qed.

(** A check run over a range of integers holds at each of them. *)
Lemma in_range (P : Z -> bool) (a : Z) (n : nat) :
  forallb P (Sample.integers a n) = true ->
  forall k, (a <= k < a + Z.of_nat n)%Z -> P k = true.
Proof.
  intros H k Hk. rewrite forallb_forall in H. apply H.
  unfold Sample.integers. apply in_map_iff. exists (Z.to_nat (k - a)). split; [lia |].
  apply in_seq. lia.
Qed.

(** The thirty floats [0.70] ... [0.99] lie between [0.7] and [0.99], and
    each times 100 prints as [k.0]. *)
Lemma hundredths_in_range k :
  (70 <= k <= 99)%Z -> literal (7 # 10) <= literal (k # 100) <= literal (99 # 100).
Proof.
  intros Hk.
  pose proof (in_range
    (fun k => Qle_bool (literal (7 # 10)) (literal (k # 100))
              && Qle_bool (literal (k # 100)) (literal (99 # 100))) 70 30) as H.
  specialize (H ltac:(vm_compute; reflexivity) k ltac:(lia)).
  apply andb_true_iff in H. destruct H as [H1 H2].
  split; apply Qle_bool_iff; assumption.
Qed.

Lemma hundredths_percent k :
  (70 <= k <= 99)%Z ->
  format_f (fmul (literal (k # 100)) (inject_Z 100)) 1 = (decimal k ++ ".0")%string.
Proof.
  intros Hk.
  pose proof (in_range
    (fun k => String.eqb (format_f (fmul (literal (k # 100)) (inject_Z 100)) 1)
                         (decimal k ++ ".0")%string) 70 30) as H.
  specialize (H ltac:(vm_compute; reflexivity) k ltac:(lia)).
  apply String.eqb_eq. exact H.
Qed.

End RoundingFacts.

(** ** service_b: what one prediction does *)

Section ServiceB.

Import service_b.

Lemma choice_labels g :
  exists c, In c labels /\ Random.choice labels g = (Returned c, snd (Random.next g)).
Proof.
  unfold Random.choice, labels, Random._randbelow.
  destruct (Random.next g) as [x g1] eqn:E. cbn [snd List.length].
  assert (H : (N.to_nat (x mod N.of_nat 5) < 5)%nat).
  { pose proof (N.mod_lt x (N.of_nat 5) ltac:(discriminate)). lia. }
  destruct (N.to_nat (x mod N.of_nat 5)) as [| [| [| [| [| n]]]]]; try lia;
    cbn [nth_error]; eexists; (split; [| reflexivity]); cbn; tauto.
Qed.

(** [random.uniform(0.7, 0.99)] lands strictly inside (0.695, 0.995). *)
Lemma uniform_draw g :
  (699 # 1000 <= fst (Random.uniform (F64.literal (7 # 10)) (F64.literal (99 # 100)) g))%Q
  /\ (fst (Random.uniform (F64.literal (7 # 10)) (F64.literal (99 # 100)) g) <= 991 # 1000)%Q.
Proof.
  unfold Random.uniform, Random.random.
  destruct (Random.next g) as [y g']. cbn [fst].
  apply uniform_range.
  pose proof (N.mod_lt y (2 ^ 53)%N ltac:(discriminate)) as H.
  split; [apply N2Z.is_nonneg | exact (proj1 (N2Z.inj_lt _ _) H)].
Qed.

(** The run of [SimpleMlModel.predict] on the label list, in terms of the
    two calls into [random]. *)
Lemma SimpleMlModel_predict_run self input_text w :
  classes self = labels ->
  exists c,
    In c labels /\
    fst (Random.choice labels (rng w)) = Returned c /\
    let g1 := snd (Random.choice labels (rng w)) in
    let ug := Random.uniform (F64.literal (7 # 10)) (F64.literal (99 # 100)) g1 in
    SimpleMlModel_predict self input_text w =
      (Returned {| class := c;
                   confidence := F64.round (fst ug) 2;
                   input_length := len input_text |},
       {| log := (log w ++ [(INFO, ("Making prediction for input: " ++ input_text)%string)])%list;
          rng := snd ug;
          model := model w |}).
Proof.
  intros Hc.
  destruct (choice_labels (rng w)) as [c [Hin Hch]].
  exists c. split; [exact Hin |]. rewrite Hch. split; [reflexivity |].
  cbn [snd].
  unfold SimpleMlModel_predict, bind, logger_info, random_choice, random_uniform,
    with_rng, ret.
  cbn [rng log model]. rewrite Hc, Hch.
  destruct (Random.uniform _ _ _) as [u g2]. reflexivity.
Qed.

(** The run of the [/predict] handler: a label, a confidence rounded from
    a draw inside (0.695, 0.995), the length of the input, and the message
    built from the first two. *)
Lemma predict_run request w :
  classes (model w) = labels ->
  exists c u w',
    In c labels
    /\ (699 # 1000 <= u)%Q /\ (u <= 991 # 1000)%Q
    /\ model w' = model w
    /\ predict request w =
         (Returned
            {| prediction := {| class := c;
                                confidence := F64.round u 2;
                                input_length := len (input request) |};
               message := "Predicted class: " ++ c ++ " with "
                          ++ F64.format_f (F64.fmul (F64.round u 2) (inject_Z 100)) 1
                          ++ "% confidence" |}, w').
Proof.
  intros Hc.
  unfold predict, bind at 1 2 3, logger_info at 1, global_model, ret.
  cbn [model].
  match goal with
  | |- context [SimpleMlModel_predict ?m ?s ?w0] =>
      destruct (SimpleMlModel_predict_run m s w0 Hc) as [c [Hin [_ Hrun]]]
  end.
  cbv zeta in Hrun. rewrite Hrun. clear Hrun.
  match goal with
  | |- context [Random.uniform ?a ?b ?g1] =>
      destruct (uniform_draw g1) as [Hlo Hhi]
  end.
  exists c. eexists. eexists.
  split; [exact Hin |]. split; [exact Hlo |]. split; [exact Hhi |].
  split; cycle 1.
  - cbn [class confidence String.append]. reflexivity.
  - reflexivity.
Qed.

Lemma serve_model w r : model (serve w r) = model w.
Proof.
  unfold serve. destruct r as [| body |]; cbn; try reflexivity.
  unfold predict, SimpleMlModel_predict, bind, logger_info, global_model,
    random_choice, random_uniform, with_rng, ret. cbn.
  destruct (Random.choice _ _) as [[c | e] g1]; reflexivity.
Qed.

Lemma serve_all_model rs : forall w, model (fold_left serve rs w) = model w.
Proof.
  induction rs as [| r rs IH]; intros w; cbn [fold_left].
  - reflexivity.
  - rewrite IH. apply serve_model.
Qed.

Lemma after_classes g rs : classes (model (after g rs)) = labels.
Proof. unfold after. rewrite serve_all_model. reflexivity. Qed.

End ServiceB.

(** ** service_b: the claims *)

Section ServiceBClaims.

Import service_b.

(** C4. For every request to [/predict], in every state the process can
    be in (any generator, any earlier requests), the [class] of the
    returned prediction is one of cat, dog, bird, fish, rabbit; the label
    list holds exactly these five from startup on, and no route of the
    service changes the model object. *)
Theorem predict_class_in_label_set (g : Random.state) (rs : list request)
    (request : PredictionRequest) :
  classes (model (startup g)) = ["cat"; "dog"; "bird"; "fish"; "rabbit"]
  /\ classes (model (after g rs)) = ["cat"; "dog"; "bird"; "fish"; "rabbit"]
  /\ (exists resp w',
        predict request (after g rs) = (Returned resp, w')
        /\ In (class (prediction resp)) ["cat"; "dog"; "bird"; "fish"; "rabbit"]
        /\ model w' = model (after g rs))
  /\ (forall w r, model (serve w r) = model w).
Proof.
  split; [reflexivity |].
  split; [apply after_classes |].
  split; [| apply serve_model].
  destruct (predict_run request (after g rs) (after_classes g rs))
    as [c [u [w' [Hin [_ [_ [Hm Hrun]]]]]]].
  eexists. exists w'. split; [exact Hrun |].
  split; [exact Hin | exact Hm].
Qed.

(** C5. For every input string [s], in every state the process can be in,
    the [input_length] of the returned prediction is the number of
    characters of [s], hence not negative; for "hello" it is 5. *)
Theorem predict_input_length (g : Random.state) (rs : list request) :
  (forall s : string,
     exists resp w',
       predict {| input := s |} (after g rs) = (Returned resp, w')
       /\ input_length (prediction resp) = Z.of_nat (String.length s)
       /\ 0 <= input_length (prediction resp))
  /\ (exists resp w',
        predict {| input := "hello" |} (after g rs) = (Returned resp, w')
        /\ input_length (prediction resp) = 5).
Proof.
  assert (H : forall s : string,
     exists resp w',
       predict {| input := s |} (after g rs) = (Returned resp, w')
       /\ input_length (prediction resp) = Z.of_nat (String.length s)).
  { intros s.
    destruct (predict_run {| input := s |} (after g rs) (after_classes g rs))
      as [c [u [w' [_ [_ [_ [_ Hrun]]]]]]].
    eexists. exists w'. split; [exact Hrun | reflexivity]. }
  split.
  - intros s. destruct (H s) as [resp [w' [Hrun Hlen]]].
    exists resp, w'. repeat split; try assumption. rewrite Hlen. lia.
  - destruct (H "hello") as [resp [w' [Hrun Hlen]]].
    exists resp, w'. split; [exact Hrun | exact Hlen].
Qed.

(** What [predict] returns carries a confidence that is the float written
    [0.kk] for some [k] from 70 to 99. *)
Lemma predict_confidence_hundredth g rs request :
  exists resp w' k,
    predict request (after g rs) = (Returned resp, w')
    /\ 70 <= k <= 99
    /\ confidence (prediction resp) = F64.literal (k # 100)
    /\ message resp =
         "Predicted class: " ++ class (prediction resp) ++ " with "
         ++ F64.format_f (F64.fmul (confidence (prediction resp)) (inject_Z 100)) 1
         ++ "% confidence".
Proof.
  destruct (predict_run request (after g rs) (after_classes g rs))
    as [c [u [w' [_ [Hlo [Hhi [_ Hrun]]]]]]].
  destruct (round2_hundredths u Hlo Hhi) as [k [Hk Hr]].
  eexists. exists w', k. split; [exact Hrun |].
  split; [exact Hk |]. cbn [prediction confidence class message].
  split; [exact Hr | reflexivity].
Qed.

(** C6. For every request to [/predict], in every state the process can
    be in, the returned [confidence] is a whole number of hundredths, that
    is the float written [0.kk] (the binary64 value nearest [k/100]) for an
    integer [k] from 70 to 99, and lies between the floats [0.7] and [0.99],
    ends included. *)
Theorem predict_confidence_range (g : Random.state) (rs : list request)
    (request : PredictionRequest) :
  exists resp w' k,
    predict request (after g rs) = (Returned resp, w')
    /\ 70 <= k <= 99
    /\ confidence (prediction resp) = F64.literal (k # 100)
    /\ F64.fle (F64.literal (7 # 10)) (confidence (prediction resp))
    /\ F64.fle (confidence (prediction resp)) (F64.literal (99 # 100)).
Proof.
  destruct (predict_confidence_hundredth g rs request)
    as [resp [w' [k [Hrun [Hk [Hc _]]]]]].
  exists resp, w', k. repeat (split; [assumption |]).
  rewrite Hc. apply hundredths_in_range. exact Hk.
Qed.

(** C7. For every request to [/predict], in every state the process can
    be in, the returned [message] is "Predicted class: ", the class of the
    same response, " with ", the product confidence*100 of the same response
    written with one decimal, and "% confidence"; that percentage reads
    [k.0] when the confidence is the float written [0.kk]. *)
Theorem predict_message (g : Random.state) (rs : list request)
    (request : PredictionRequest) :
  exists resp w' k,
    predict request (after g rs) = (Returned resp, w')
    /\ message resp =
         "Predicted class: " ++ class (prediction resp) ++ " with "
         ++ F64.format_f (F64.fmul (confidence (prediction resp)) (inject_Z 100)) 1
         ++ "% confidence"
    /\ confidence (prediction resp) = F64.literal (k # 100)
    /\ F64.format_f (F64.fmul (confidence (prediction resp)) (inject_Z 100)) 1
       = F64.decimal k ++ ".0".
Proof.
  destruct (predict_confidence_hundredth g rs request)
    as [resp [w' [k [Hrun [Hk [Hc Hm]]]]]].
  exists resp, w', k. repeat (split; [assumption |]).
  rewrite Hc. apply hundredths_percent. exact Hk.
Qed.

(** C10. Two runs of [SimpleMlModel.predict] that start from the same
    generator state and the same model, on any two input texts, return the
    same class and the same confidence and leave the generator in the same
    state; each result carries the length of its own input, the only field
    in which they can differ. *)
Theorem predict_ignores_input_text (w1 w2 : world) (s1 s2 : string) :
  rng w1 = rng w2 ->
  model w1 = model w2 ->
  classes (model w1) = labels ->
  exists p1 p2 w1' w2',
    SimpleMlModel_predict (model w1) s1 w1 = (Returned p1, w1')
    /\ SimpleMlModel_predict (model w2) s2 w2 = (Returned p2, w2')
    /\ class p1 = class p2
    /\ confidence p1 = confidence p2
    /\ input_length p1 = len s1
    /\ input_length p2 = len s2
    /\ rng w1' = rng w2'.
Proof.
  intros Hr Hm Hc.
  assert (Hc2 : classes (model w2) = labels) by (rewrite <- Hm; exact Hc).
  destruct (SimpleMlModel_predict_run (model w1) s1 w1 Hc) as [c1 [_ [Hd1 Hrun1]]].
  destruct (SimpleMlModel_predict_run (model w2) s2 w2 Hc2) as [c2 [_ [Hd2 Hrun2]]].
  cbv zeta in Hrun1, Hrun2. rewrite Hr in Hd1, Hrun1.
  rewrite Hd1 in Hd2. injection Hd2 as <-.
  do 4 eexists.
  split; [exact Hrun1 |]. split; [exact Hrun2 |].
  cbn [class confidence input_length rng]. repeat split; reflexivity.
Qed.

(** The start-up state and the same state with one more log line differ
    in nothing [SimpleMlModel.predict] draws from. *)
Lemma predict_ignores_input_text_witness :
  let w1 := startup Sample.counting in
  let w2 := snd (logger_info "warm" w1) in
  exists p1 p2 w1' w2',
    SimpleMlModel_predict (model w1) "hello" w1 = (Returned p1, w1')
    /\ SimpleMlModel_predict (model w2) "a much longer text" w2 = (Returned p2, w2')
    /\ class p1 = class p2
    /\ confidence p1 = confidence p2
    /\ input_length p1 = len "hello"
    /\ input_length p2 = len "a much longer text"
    /\ rng w1' = rng w2'.
Proof.
  intros w1 w2.
  apply (predict_ignores_input_text w1 w2 "hello" "a much longer text");
    reflexivity.
Defined.

End ServiceBClaims.

(** ** service_a: the claims, and the fixed routes of both services *)

Section ServiceAClaims.

Import service_a.

(** What [process_input] does when the outbound call returns a response
    whose body decodes. *)
Lemma process_input_relays w d r body :
  network w (forward_call d) = PostReturns r ->
  json_method r = Returned body ->
  process_input {| data := d; forward_to_model := true |} w =
    (Returned (JDict [("status", JStr "Input logged successfully");
                      ("model_prediction", body)]),
     {| log := (log w ++ [(INFO, ("Received input: " ++ d)%string)])%list;
        sent := (sent w ++ [forward_call d])%list;
        network := network w |}).
Proof.
  intros Hn Hj.
  unfold process_input, bind, try_except_RequestException, logger_info, emit,
    requests_post, response_json, ret.
  cbn [data forward_to_model log sent network].
  fold (forward_call d). rewrite Hn, Hj. reflexivity.
Qed.

(** What it does when the outbound call raises. *)
Lemma process_input_unavailable w d kind text :
  network w (forward_call d) = PostRaises kind text ->
  process_input {| data := d; forward_to_model := true |} w =
    (Raised (HTTPException 503 ("Service B is unavailable: " ++ text)),
     {| log := (log w ++ [(INFO, ("Received input: " ++ d)%string);
                          (ERROR, ("Failed to reach Service B: " ++ text)%string)])%list;
        sent := (sent w ++ [forward_call d])%list;
        network := network w |}).
Proof.
  intros Hn.
  unfold process_input, bind, try_except_RequestException, logger_info, logger_error,
    emit, requests_post, response_json, ret, raise.
  cbn [data forward_to_model log sent network].
  fold (forward_call d). rewrite Hn.
  cbn [as_RequestException log sent network]. rewrite <- app_assoc. reflexivity.
Qed.

(** What it does when a response came back and its body does not decode:
    a decode error of the [requests] hierarchy is reported like an
    unreachable peer, any other error escapes the handler. *)
Lemma process_input_undecodable w d r e :
  network w (forward_call d) = PostReturns r ->
  json_method r = Raised e ->
  exists e' w',
    process_input {| data := d; forward_to_model := true |} w = (Raised e', w')
    /\ sent w' = (sent w ++ [forward_call d])%list
    /\ e' = match as_RequestException e with
            | Some text => HTTPException 503 ("Service B is unavailable: " ++ text)
            | None => e
            end.
Proof.
  intros Hn Hj.
  unfold process_input, bind, try_except_RequestException, logger_info, logger_error,
    emit, requests_post, response_json, ret, raise.
  cbn [data forward_to_model log sent network].
  fold (forward_call d). rewrite Hn, Hj.
  destruct (as_RequestException e) as [text |];
    do 2 eexists; (split; [reflexivity |]); split; reflexivity.
Qed.

(** What it does when it is told not to forward. *)
Lemma process_input_local w d :
  process_input {| data := d; forward_to_model := false |} w =
    (Returned (JDict [("status", JStr "Input logged successfully")]),
     {| log := (log w ++ [(INFO, ("Received input: " ++ d)%string)])%list;
        sent := sent w;
        network := network w |}).
Proof. reflexivity. Qed.

(** C1. When forwarding is on and the outbound call returns a response
    whose body decodes to [body], [process_input] returns the dict with
    [status] "Input logged successfully" and [model_prediction] [body], and
    the one request it has sent is a POST to the Back Service with the JSON
    body [{"input": data}]. *)
Theorem process_input_forwards (w : world) (d : string) (r : Response) (body : json) :
  network w {| url := SERVICE_B_URL;
               json_arg := JDict [("input", JStr d)];
               timeout := 3 |} = PostReturns r ->
  json_method r = Returned body ->
  exists w',
    process_input {| data := d; forward_to_model := true |} w =
      (Returned (JDict [("status", JStr "Input logged successfully");
                        ("model_prediction", body)]), w')
    /\ sent w' = (sent w ++ [{| url := SERVICE_B_URL;
                                json_arg := JDict [("input", JStr d)];
                                timeout := 3 |}])%list.
Proof.
  intros Hn Hj.
  eexists. split; [exact (process_input_relays w d r body Hn Hj) |].
  reflexivity.
Qed.

(** The peer answers 200 with a small JSON object. *)
Lemma process_input_forwards_witness :
  exists w',
    process_input {| data := "hello"; forward_to_model := true |}
      (Sample.front (Sample.answering 200 (JDict [("message", JStr "ok")])))
    = (Returned (JDict [("status", JStr "Input logged successfully");
                        ("model_prediction", JDict [("message", JStr "ok")])]), w')
    /\ sent w' = [{| url := SERVICE_B_URL;
                     json_arg := JDict [("input", JStr "hello")];
                     timeout := 3 |}].
Proof.
  apply (process_input_forwards
           (Sample.front (Sample.answering 200 (JDict [("message", JStr "ok")])))
           "hello"
           {| status_code := 200;
              json_method := Returned (JDict [("message", JStr "ok")]) |}
           (JDict [("message", JStr "ok")]));
    reflexivity.
Defined.

(** C3. When forwarding is off, [process_input] returns exactly the dict
    [{"status": "Input logged successfully"}], which has no
    [model_prediction] entry, and sends nothing. *)
Theorem process_input_without_forwarding (w : world) (d : string) :
  exists w',
    process_input {| data := d; forward_to_model := false |} w =
      (Returned (JDict [("status", JStr "Input logged successfully")]), w')
    /\ get (JDict [("status", JStr "Input logged successfully")]) "model_prediction" = None
    /\ sent w' = sent w.
Proof.
  eexists. split; [apply process_input_local |]. split; reflexivity.
Qed.

(** C9. Whatever status code the Back Service answers with, 4xx and 5xx
    included, when the body decodes to [body] [process_input] returns the
    dict with [status] "Input logged successfully" and [model_prediction]
    [body]; it does not raise. *)
Theorem process_input_ignores_status_code (w : world) (d : string) (code : Z) (body : json) :
  network w (forward_call d) =
    PostReturns {| status_code := code; json_method := Returned body |} ->
  exists w',
    process_input {| data := d; forward_to_model := true |} w =
      (Returned (JDict [("status", JStr "Input logged successfully");
                        ("model_prediction", body)]), w')
    /\ ~ failed (process_input {| data := d; forward_to_model := true |} w).
Proof.
  intros Hn.
  pose proof (process_input_relays w d _ body Hn eq_refl) as Hrun.
  eexists. split; [exact Hrun |].
  rewrite Hrun. intros [e He]. discriminate He.
Qed.

(** The peer answers 500 with a JSON error body. *)
Lemma process_input_ignores_status_code_witness :
  exists w',
    process_input {| data := "hello"; forward_to_model := true |}
      (Sample.front (Sample.answering 500 (JDict [("detail", JStr "boom")]))) =
      (Returned (JDict [("status", JStr "Input logged successfully");
                        ("model_prediction", JDict [("detail", JStr "boom")])]), w')
    /\ ~ failed (process_input {| data := "hello"; forward_to_model := true |}
                   (Sample.front (Sample.answering 500 (JDict [("detail", JStr "boom")])))).
Proof.
  apply (process_input_ignores_status_code
           (Sample.front (Sample.answering 500 (JDict [("detail", JStr "boom")])))
           "hello" 500 (JDict [("detail", JStr "boom")])).
  reflexivity.
Defined.

(** [process_input] raises exactly when it forwards and either the call
    raises or the response body does not decode. *)
Lemma process_input_failed_iff w req :
  failed (process_input req w) <->
  forward_to_model req = true
  /\ (transport_failure w (data req) \/ undecodable_body w (data req)).
Proof.
  destruct req as [d fwd]. cbn [data forward_to_model]. split.
  - intros [e He]. destruct fwd.
    + split; [reflexivity |].
      destruct (network w (forward_call d)) as [kind text | r] eqn:Hn.
      * left. exists kind, text. exact Hn.
      * right. destruct (json_method r) as [body | e'] eqn:Hj.
        -- rewrite (process_input_relays w d r body Hn Hj) in He. discriminate He.
        -- exists r, e'. split; [exact Hn | exact Hj].
    + rewrite process_input_local in He. discriminate He.
  - intros [-> [[kind [text Hn]] | [r [e [Hn Hj]]]]].
    + rewrite (process_input_unavailable w d kind text Hn). eexists. reflexivity.
    + destruct (process_input_undecodable w d r e Hn Hj) as [e' [w' [Hrun _]]].
      rewrite Hrun. exists e'. reflexivity.
Qed.

(** C2, as the claim states it, fails: the peer answers 200 with a body
    that is not JSON; nothing went wrong at the transport level, and yet
    [process_input] raises the 503. *)
Lemma process_input_fails_on_garbled_body :
  fst (process_input {| data := "hi"; forward_to_model := true |}
         (Sample.front Sample.garbled))
    = Raised (HTTPException 503
        "Service B is unavailable: Expecting value: line 1 column 1 (char 0)")
  /\ ~ (failed (process_input {| data := "hi"; forward_to_model := true |}
                  (Sample.front Sample.garbled))
        <-> forward_to_model {| data := "hi"; forward_to_model := true |} = true
            /\ transport_failure (Sample.front Sample.garbled) "hi").
Proof.
  split; [reflexivity |].
  intros [H _].
  destruct H as [_ [kind [text H]]]; [eexists; reflexivity | discriminate H].
Qed.

(** C2, amended. [process_input] raises if and only if forwarding is on
    and either the outbound call raises (connection failure, timeout, ...)
    or the response body does not decode as JSON.  When the outbound call
    raises, whatever the kind of failure, it raises the 503 whose detail is
    "Service B is unavailable: " followed by the failure text, having sent
    exactly one request, and does not return.  Every other route of either
    service returns: the fixed routes in any state, [/predict] in every
    state the Back Service can be in. *)
Theorem process_input_fails_iff (w : world) (req : InputData) :
  (failed (process_input req w) <->
     forward_to_model req = true
     /\ (transport_failure w (data req) \/ undecodable_body w (data req)))
  /\ (forall kind text,
        forward_to_model req = true ->
        network w (forward_call (data req)) = PostRaises kind text ->
        exists w',
          process_input req w =
            (Raised (HTTPException 503 ("Service B is unavailable: " ++ text)), w')
          /\ sent w' = (sent w ++ [forward_call (data req)])%list
          /\ ~ returned (process_input req w))
  /\ returned (read_root w)
  /\ returned (health_check w)
  /\ (forall wb, returned (service_b.read_root wb) /\ returned (service_b.health_check wb))
  /\ (forall g rs request, returned (service_b.predict request (service_b.after g rs))).
Proof.
  split; [apply process_input_failed_iff |].
  split.
  { intros kind text Hf Hn. destruct req as [d fwd]. cbn [data forward_to_model] in *.
    subst fwd. pose proof (process_input_unavailable w d kind text Hn) as Hrun.
    eexists. split; [exact Hrun |]. split; [reflexivity |].
    rewrite Hrun. intros [a Ha]. discriminate Ha. }
  split; [eexists; reflexivity |].
  split; [eexists; reflexivity |].
  split; [intros wb; split; eexists; reflexivity |].
  intros g rs request.
  destruct (predict_run request (service_b.after g rs) (after_classes g rs))
    as [c [u [w' [_ [_ [_ [_ Hrun]]]]]]].
  rewrite Hrun. eexists. reflexivity.
Qed.

(** A read timeout on the one outbound call comes out as the 503. *)
Lemma process_input_fails_iff_witness :
  exists w',
    process_input {| data := "hi"; forward_to_model := true |}
      (Sample.front Sample.stalling) =
      (Raised (HTTPException 503
         ("Service B is unavailable: " ++ "Read timed out. (read timeout=3)")), w')
    /\ sent w' = ([] ++ [forward_call "hi"])%list
    /\ ~ returned (process_input {| data := "hi"; forward_to_model := true |}
                     (Sample.front Sample.stalling)).
Proof.
  destruct (process_input_fails_iff (Sample.front Sample.stalling)
              {| data := "hi"; forward_to_model := true |}) as [_ [H _]].
  apply (H Timeout "Read timed out. (read timeout=3)"); reflexivity.
Defined.

(** C8. In any state of either process, [/health] returns the payload
    with the service's name and [status] "healthy", and [/] a payload with
    [status] "running"; neither raises nor changes the state. *)
Theorem health_and_root_are_fixed (wa : service_a.world) (wb : service_b.world) :
  (exists payload,
     service_a.health_check wa = (Returned payload, wa)
     /\ get payload "service" = Some (JStr "Service A")
     /\ get payload "status" = Some (JStr "healthy"))
  /\ (exists payload,
        service_b.health_check wb = (Returned payload, wb)
        /\ get payload "service" = Some (JStr "Service B")
        /\ get payload "status" = Some (JStr "healthy"))
  /\ (exists payload,
        service_a.read_root wa = (Returned payload, wa)
        /\ get payload "service" = Some (JStr "Service A - Input Logger")
        /\ get payload "status" = Some (JStr "running"))
  /\ (exists payload,
        service_b.read_root wb = (Returned payload, wb)
        /\ get payload "service" = Some (JStr "Service B - ML Prediction")
        /\ get payload "status" = Some (JStr "running")).
Proof.
  repeat split; eexists; (split; [reflexivity |]); split; reflexivity.
Qed.

End ServiceAClaims.

(** ** service_a: runs, log lines and escaping errors *)

Section FrontRuns.

Import service_a front_run.

(** One [/process] request sends its one call when forwarding is on and
    nothing otherwise, however the call ends. *)
Lemma process_input_sent w req :
  sent (snd (process_input req w)) =
    (sent w ++ if forward_to_model req then [forward_call (data req)] else [])%list.
Proof.
  destruct req as [d [|]]; cbn [data forward_to_model].
  - destruct (network w (forward_call d)) as [kind text | r] eqn:Hn.
    + rewrite (process_input_unavailable w d kind text Hn). reflexivity.
    + destruct (json_method r) as [body | e] eqn:Hj.
      * rewrite (process_input_relays w d r body Hn Hj). reflexivity.
      * destruct (process_input_undecodable w d r e Hn Hj) as [e' [w' [Hrun [Hs _]]]].
        rewrite Hrun. exact Hs.
  - rewrite process_input_local. cbn [snd sent]. rewrite app_nil_r. reflexivity.
Qed.

Lemma serve_sent w r :
  sent (serve w r) = (sent w ++ forwards [r])%list.
Proof.
  destruct r as [| body |]; unfold serve, handle; cbn [forwards].
  - cbn. rewrite app_nil_r. reflexivity.
  - rewrite process_input_sent. destruct (forward_to_model body); reflexivity.
  - cbn. rewrite app_nil_r. reflexivity.
Qed.

Lemma forwards_cons r rs : forwards (r :: rs) = (forwards [r] ++ forwards rs)%list.
Proof.
  destruct r as [| body |]; cbn [forwards app]; try reflexivity.
  destruct (forward_to_model body); reflexivity.
Qed.

(** X1. Over any run of requests the front service sends exactly one
    call per [/process] request that has forwarding on, in the order of the
    requests and whatever each call came to (answer, refusal, timeout,
    undecodable body): nothing is retried, dropped, merged or reordered. *)
Theorem run_sends_one_call_per_forward (w : world) (rs : list request) :
  sent (after w rs) = (sent w ++ forwards rs)%list.
Proof.
  unfold after. revert w.
  induction rs as [| r rs IH]; intros w.
  - cbn. rewrite app_nil_r. reflexivity.
  - cbn [fold_left]. rewrite IH, serve_sent, (forwards_cons r rs), app_assoc.
    reflexivity.
Qed.

(** X2. Every run of [process_input] first logs the received text at
    INFO.  It then ends in one of three ways: it returns, with no further
    line; or it raises the 503 and has logged one ERROR line, the detail and
    the line carrying the same failure text; or an exception outside the
    [requests] hierarchy escapes it, with no further line. *)
Theorem process_input_log (w : world) (req : InputData) :
  let out := fst (process_input req w) in
  let w' := snd (process_input req w) in
  ((exists result, out = Returned result)
   /\ log w' = (log w ++ [(INFO, ("Received input: " ++ data req)%string)])%list)
  \/ (exists text,
        out = Raised (HTTPException 503 ("Service B is unavailable: " ++ text))
        /\ log w' = (log w ++ [(INFO, ("Received input: " ++ data req)%string);
                               (ERROR, ("Failed to reach Service B: " ++ text)%string)])%list)
  \/ (exists e,
        out = Raised e /\ as_RequestException e = None
        /\ log w' = (log w ++ [(INFO, ("Received input: " ++ data req)%string)])%list).
Proof.
  destruct req as [d [|]]; cbn [data forward_to_model]; cbv zeta.
  - destruct (network w (forward_call d)) as [kind text | r] eqn:Hn.
    + right. left. exists text.
      rewrite (process_input_unavailable w d kind text Hn). split; reflexivity.
    + destruct (json_method r) as [body | e] eqn:Hj.
      * left. rewrite (process_input_relays w d r body Hn Hj).
        split; [eexists |]; reflexivity.
      * unfold process_input, bind, try_except_RequestException, logger_info,
          logger_error, emit, requests_post, response_json, ret, raise.
        cbn [data forward_to_model log sent network].
        fold (forward_call d). rewrite Hn, Hj.
        destruct (as_RequestException e) as [text |] eqn:He.
        -- right. left. exists text. cbn [fst snd log].
           rewrite <- app_assoc. split; reflexivity.
        -- right. right. exists e. cbn [fst snd log].
           split; [reflexivity |]. split; [exact He | reflexivity].
  - left. rewrite process_input_local. split; [eexists |]; reflexivity.
Qed.

(** X3. When the response body does not decode and [response.json()]
    raises an exception that is not a [requests.RequestException] (the
    [ValueError] of older requests), [process_input] does not turn it into
    the 503: the exception escapes as it is, no ERROR line is logged, and
    the one call has been sent. *)
Theorem process_input_lets_other_errors_escape (w : world) (d : string)
    (r : Response) (e : exn) :
  network w (forward_call d) = PostReturns r ->
  json_method r = Raised e ->
  as_RequestException e = None ->
  process_input {| data := d; forward_to_model := true |} w =
    (Raised e,
     {| log := (log w ++ [(INFO, ("Received input: " ++ d)%string)])%list;
        sent := (sent w ++ [forward_call d])%list;
        network := network w |}).
Proof.
  intros Hn Hj He.
  unfold process_input, bind, try_except_RequestException, logger_info,
    logger_error, emit, requests_post, response_json, ret, raise.
  cbn [data forward_to_model log sent network].
  fold (forward_call d). rewrite Hn, Hj, He. reflexivity.
Qed.

(** A peer whose garbled body makes [response.json()] raise [ValueError]. *)
Lemma process_input_lets_other_errors_escape_witness :
  process_input {| data := "hi"; forward_to_model := true |}
    (Sample.front garbled_legacy) =
    (Raised (ValueError "Expecting value: line 1 column 1 (char 0)"),
     {| log := ([] ++ [(INFO, ("Received input: " ++ "hi")%string)])%list;
        sent := ([] ++ [forward_call "hi"])%list;
        network := garbled_legacy |}).
Proof.
  apply (process_input_lets_other_errors_escape (Sample.front garbled_legacy) "hi"
           {| status_code := 200;
              json_method := Raised (ValueError "Expecting value: line 1 column 1 (char 0)") |}
           (ValueError "Expecting value: line 1 column 1 (char 0)"));
    reflexivity.
Defined.

End FrontRuns.

(** ** service_b: any label list, runs, and what can come out *)

Section BackRuns.

Import service_b back_run.

(** [random.choice] over a list that is not empty returns one of its
    elements and reads one draw. *)
Lemma choice_member {A} (l : list A) g :
  l <> [] ->
  exists c, In c l /\ Random.choice l g = (Returned c, snd (Random.next g)).
Proof.
  intros Hl. destruct l as [| a l']; [congruence |].
  unfold Random.choice, Random._randbelow.
  destruct (Random.next g) as [x g1]. cbn [snd].
  set (n := List.length (a :: l')).
  assert (Hn : N.of_nat n <> 0%N) by (unfold n; cbn [List.length]; lia).
  pose proof (N.mod_lt x (N.of_nat n) Hn) as Hlt.
  destruct (nth_error (a :: l') (N.to_nat (x mod N.of_nat n))) as [c |] eqn:Hc.
  - exists c. split; [exact (nth_error_In _ _ Hc) | reflexivity].
  - apply nth_error_None in Hc. fold n in Hc. lia.
Qed.

(** The run of [SimpleMlModel.predict] for any instance, up to the call
    of [random.choice]. *)
Lemma SimpleMlModel_predict_steps self input_text w :
  SimpleMlModel_predict self input_text w =
    match Random.choice (classes self) (rng w) with
    | (Returned c, g1) =>
        let ug := Random.uniform (F64.literal (7 # 10)) (F64.literal (99 # 100)) g1 in
        (Returned {| class := c;
                     confidence := F64.round (fst ug) 2;
                     input_length := len input_text |},
         {| log := (log w ++ [(INFO, ("Making prediction for input: "
                                       ++ input_text)%string)])%list;
            rng := snd ug;
            model := model w |})
    | (Raised e, g1) =>
        (Raised e,
         {| log := (log w ++ [(INFO, ("Making prediction for input: "
                                       ++ input_text)%string)])%list;
            rng := g1;
            model := model w |})
    end.
Proof.
  unfold SimpleMlModel_predict, bind, logger_info, random_choice, random_uniform,
    with_rng, ret.
  cbn [rng log model].
  destruct (Random.choice (classes self) (rng w)) as [[c | e] g1]; [| reflexivity].
  cbn [rng log model].
  destruct (Random.uniform _ _ g1) as [u g2]. reflexivity.
Qed.

(** The whole run of the [/predict] handler on the five labels: the
    reply and the state it leaves. *)
Lemma predict_eval request w :
  classes (model w) = labels ->
  exists c,
    In c labels
    /\ fst (Random.choice labels (rng w)) = Returned c
    /\ predict request w =
         (Returned
            {| prediction :=
                 {| class := c;
                    confidence :=
                      F64.round
                        (fst (Random.uniform (F64.literal (7 # 10)) (F64.literal (99 # 100))
                                (snd (Random.choice labels (rng w))))) 2;
                    input_length := len (input request) |};
               message :=
                 "Predicted class: " ++ c ++ " with "
                 ++ F64.format_f
                      (F64.fmul
                         (F64.round
                            (fst (Random.uniform (F64.literal (7 # 10))
                                    (F64.literal (99 # 100))
                                    (snd (Random.choice labels (rng w))))) 2)
                         (inject_Z 100)) 1
                 ++ "% confidence" |},
          {| log := (log w ++ log_lines (POST_predict request))%list;
             rng := drawn (rng w);
             model := model w |}).
Proof.
  intros Hc.
  destruct (choice_labels (rng w)) as [c [Hin Hch]].
  exists c. split; [exact Hin |]. split; [rewrite Hch; reflexivity |].
  unfold predict, bind at 1 2 3, logger_info at 1, global_model, ret.
  cbn [model]. rewrite SimpleMlModel_predict_steps. cbn [rng log model].
  rewrite Hc. unfold drawn. rewrite Hch. cbn [snd fst].
  cbv zeta. cbn [class confidence String.append log_lines app].
  rewrite <- app_assoc. reflexivity.
Qed.

(** X4. Whatever label list an instance of [SimpleMlModel] holds, as
    long as it is not empty, [predict] returns: the class is a member of
    that very list, the confidence is the float written [0.kk] for some [k]
    from 70 to 99, and [input_length] is the length of the input. *)
Theorem predict_class_from_own_list (self : SimpleMlModel) (input_text : string)
    (w : world) :
  classes self <> [] ->
  exists p w' k,
    SimpleMlModel_predict self input_text w = (Returned p, w')
    /\ In (class p) (classes self)
    /\ 70 <= k <= 99
    /\ confidence p = F64.literal (k # 100)
    /\ input_length p = len input_text.
Proof.
  intros Hl.
  destruct (choice_member (classes self) (rng w) Hl) as [c [Hin Hch]].
  rewrite SimpleMlModel_predict_steps, Hch. cbv zeta.
  destruct (uniform_draw (snd (Random.next (rng w)))) as [Hlo Hhi].
  destruct (round2_hundredths _ Hlo Hhi) as [k [Hk Hr]].
  do 2 eexists. exists k. split; [reflexivity |].
  cbn [class confidence input_length].
  split; [exact Hin |]. split; [exact Hk |]. split; [exact Hr | reflexivity].
Qed.

(** An instance with two labels of its own. *)
Lemma predict_class_from_own_list_witness :
  exists p w' k,
    SimpleMlModel_predict {| classes := ["yes"; "no"] |} "hello"
      (startup Sample.counting) = (Returned p, w')
    /\ In (class p) ["yes"; "no"]
    /\ 70 <= k <= 99
    /\ confidence p = F64.literal (k # 100)
    /\ input_length p = len "hello".
Proof.
  apply (predict_class_from_own_list {| classes := ["yes"; "no"] |} "hello"
           (startup Sample.counting)).
  discriminate.
Defined.

(** X5. With an empty label list [predict] raises [IndexError], out of
    [random.choice]: the log line of the method is already written, the
    generator is left as it was, and the [/predict] handler lets the error
    through instead of replying. *)
Theorem predict_without_labels (request : PredictionRequest) (w : world) :
  classes (model w) = [] ->
  (exists text,
     SimpleMlModel_predict (model w) (input request) w =
       (Raised (IndexError text),
        {| log := (log w ++ [(INFO, ("Making prediction for input: "
                                      ++ input request)%string)])%list;
           rng := rng w;
           model := model w |}))
  /\ (exists text w',
        predict request w = (Raised (IndexError text), w')
        /\ rng w' = rng w
        /\ log w' = (log w ++ log_lines (POST_predict request))%list).
Proof.
  intros Hc. split.
  - rewrite SimpleMlModel_predict_steps, Hc. cbn [Random.choice].
    eexists. reflexivity.
  - unfold predict, bind at 1 2 3, logger_info at 1, global_model, ret.
    cbn [model]. rewrite SimpleMlModel_predict_steps. cbn [rng log model].
    rewrite Hc. cbn [Random.choice].
    do 2 eexists. split; [reflexivity |]. cbn [rng log log_lines].
    rewrite <- app_assoc. split; reflexivity.
Qed.

Lemma predict_without_labels_witness :
  (exists text,
     SimpleMlModel_predict (model (unlabelled Sample.counting)) "hello"
       (unlabelled Sample.counting) =
       (Raised (IndexError text),
        {| log := ([] ++ [(INFO, ("Making prediction for input: " ++ "hello")%string)])%list;
           rng := Sample.counting;
           model := {| classes := [] |} |}))
  /\ (exists text w',
        predict {| input := "hello" |} (unlabelled Sample.counting)
          = (Raised (IndexError text), w')
        /\ rng w' = Sample.counting
        /\ log w' = ([] ++ log_lines (POST_predict {| input := "hello" |}))%list).
Proof.
  apply (predict_without_labels {| input := "hello" |} (unlabelled Sample.counting)).
  reflexivity.
Defined.

(** What serving one request does to the log, the generator and the
    model, in a state that holds the five labels. *)
Lemma serve_step w r :
  classes (model w) = labels ->
  log (serve w r) = (log w ++ log_lines r)%list
  /\ rng (serve w r) = (if is_predict r then drawn (rng w) else rng w)
  /\ classes (model (serve w r)) = labels.
Proof.
  intros Hc. destruct r as [| body |]; unfold serve, handle.
  - cbn. rewrite app_nil_r. auto.
  - destruct (predict_eval body w Hc) as [c [_ [_ Hrun]]].
    unfold bind. rewrite Hrun. cbn [snd ret log rng model is_predict]. auto.
  - cbn. rewrite app_nil_r. auto.
Qed.

Lemma run_steps rs : forall w,
  classes (model w) = labels ->
  log (fold_left serve rs w) = (log w ++ flat_map log_lines rs)%list
  /\ rng (fold_left serve rs w) = Nat.iter (predictions rs) drawn (rng w).
Proof.
  induction rs as [| r rs IH]; intros w Hc.
  - cbn. rewrite app_nil_r. auto.
  - destruct (serve_step w r Hc) as [Hl [Hr Hm]].
    destruct (IH (serve w r) Hm) as [IHl IHr].
    cbn [fold_left flat_map]. rewrite IHl, IHr, Hl, Hr, <- app_assoc.
    split; [reflexivity |].
    unfold predictions. cbn [filter].
    destruct (is_predict r); cbn [List.length]; [| reflexivity].
    rewrite Nat.iter_succ_r. reflexivity.
Qed.

(** X6. The log of the back service after any run of requests is the
    line "ML model initialized" followed, for each [/predict] request in
    order, by "Received prediction request with input: s" and "Making
    prediction for input: s"; [/] and [/health] add no line. *)
Theorem run_log (g : Random.state) (rs : list request) :
  log (after g rs) = (INFO, "ML model initialized") :: flat_map log_lines rs.
Proof.
  unfold after. destruct (run_steps rs (startup g) eq_refl) as [Hl _].
  rewrite Hl. reflexivity.
Qed.

Lemma no_second_initialization rs :
  occurrences "ML model initialized" (flat_map log_lines rs) = O.
Proof.
  unfold occurrences.
  induction rs as [| r rs IH]; [reflexivity |].
  cbn [flat_map]. rewrite filter_app, length_app.
  match goal with
  | |- (_ + ?b)%nat = _ => assert (E : b = O) by exact IH; rewrite E
  end.
  rewrite Nat.add_0_r. destruct r as [| body |]; reflexivity.
Qed.

(** X7. However many requests have been served and whatever their input
    texts, the log holds the line "ML model initialized" exactly once: the
    model object is built at startup and by no request. *)
Theorem model_initialized_once (g : Random.state) (rs : list request) :
  occurrences "ML model initialized" (log (after g rs)) = 1%nat.
Proof.
  unfold after. destruct (run_steps rs (startup g) eq_refl) as [Hl _].
  rewrite Hl. unfold occurrences. rewrite filter_app, length_app.
  match goal with
  | |- (_ + ?b)%nat = _ =>
      assert (E : b = O) by exact (no_second_initialization rs); rewrite E
  end.
  reflexivity.
Qed.

(** X8. The class and confidence of a prediction depend on how many
    [/predict] requests came before it and on nothing else of the history:
    after two runs from the same start that hold equally many [/predict]
    requests, whatever their input texts and however many [/] and [/health]
    requests lie in between, the generator is in the same state and the
    next two predictions have the same class and confidence. *)
Theorem prediction_depends_on_count_only (g : Random.state)
    (rs1 rs2 : list request) (request1 request2 : PredictionRequest) :
  predictions rs1 = predictions rs2 ->
  rng (after g rs1) = rng (after g rs2)
  /\ exists r1 r2 w1 w2,
       predict request1 (after g rs1) = (Returned r1, w1)
       /\ predict request2 (after g rs2) = (Returned r2, w2)
       /\ class (prediction r1) = class (prediction r2)
       /\ confidence (prediction r1) = confidence (prediction r2).
Proof.
  intros Hn.
  assert (Hr : rng (after g rs1) = rng (after g rs2)).
  { unfold after.
    destruct (run_steps rs1 (startup g) eq_refl) as [_ ->].
    destruct (run_steps rs2 (startup g) eq_refl) as [_ ->].
    rewrite Hn. reflexivity. }
  split; [exact Hr |].
  destruct (predict_eval request1 (after g rs1) (after_classes g rs1))
    as [c1 [_ [Hc1 Hrun1]]].
  destruct (predict_eval request2 (after g rs2) (after_classes g rs2))
    as [c2 [_ [Hc2 Hrun2]]].
  rewrite Hr in Hc1, Hrun1. rewrite Hc1 in Hc2. injection Hc2 as <-.
  do 4 eexists. split; [exact Hrun1 |]. split; [exact Hrun2 |].
  cbn [prediction class confidence]. split; reflexivity.
Qed.

(** Two histories with one prediction each, other texts, other GETs. *)
Lemma prediction_depends_on_count_only_witness :
  rng (after Sample.counting [GET_health; POST_predict {| input := "a" |}])
  = rng (after Sample.counting [POST_predict {| input := "bbb" |}; GET_root])
  /\ exists r1 r2 w1 w2,
       predict {| input := "x" |}
         (after Sample.counting [GET_health; POST_predict {| input := "a" |}])
         = (Returned r1, w1)
       /\ predict {| input := "yy" |}
            (after Sample.counting [POST_predict {| input := "bbb" |}; GET_root])
            = (Returned r2, w2)
       /\ class (prediction r1) = class (prediction r2)
       /\ confidence (prediction r1) = confidence (prediction r2).
Proof.
  apply (prediction_depends_on_count_only Sample.counting
           [GET_health; POST_predict {| input := "a" |}]
           [POST_predict {| input := "bbb" |}; GET_root]
           {| input := "x" |} {| input := "yy" |}).
  reflexivity.
Defined.

End BackRuns.

(** ** What can come out of a prediction, and the two services together *)

Section Outcomes.

Import service_b back_run.

Lemma same_float_eq x y : same_float x y = true -> x = y.
Proof.
  destruct x as [a b], y as [c d]. unfold same_float. cbn [Qnum Qden].
  intros H. apply andb_true_iff in H. destruct H as [H1 H2].
  apply Z.eqb_eq in H1. apply Pos.eqb_eq in H2. subst. reflexivity.
Qed.

(** The raw draw [draw_for k] makes [round(random.uniform(0.7, 0.99), 2)]
    the float written [0.kk]. *)
Lemma draw_for_hits k :
  70 <= k <= 99 ->
  F64.round
    (F64.fadd (F64.literal (7 # 10))
       (F64.fmul (F64.fsub (F64.literal (99 # 100)) (F64.literal (7 # 10)))
          (Z.of_N (draw_for k mod 2 ^ 53) # 2 ^ 53))) 2
  = F64.literal (k # 100).
Proof.
  intros Hk.
  pose proof (in_range
    (fun k => same_float
       (F64.round
          (F64.fadd (F64.literal (7 # 10))
             (F64.fmul (F64.fsub (F64.literal (99 # 100)) (F64.literal (7 # 10)))
                (Z.of_N (draw_for k mod 2 ^ 53) # 2 ^ 53))) 2)
       (F64.literal (k # 100))) 70 30) as H.
  specialize (H ltac:(vm_compute; reflexivity) k ltac:(lia)).
  apply same_float_eq. exact H.
Qed.

Lemma append_assoc (a b c : string) : ((a ++ b) ++ c = a ++ (b ++ c))%string.
Proof. induction a as [| x a IH]; cbn; [reflexivity | rewrite IH; reflexivity]. Qed.

Lemma Returned_inj {A} (a b : A) : Returned a = Returned b -> a = b.
Proof. intros H. congruence. Qed.

(** X9. The bounds of the prediction are tight: for each of the five
    labels and each [k] from 70 to 99 there is a state of the generator in
    which [/predict] returns that label with the confidence written [0.kk],
    0.70 and 0.99 included, and the message showing [k.0]%. *)
Theorem every_outcome_is_attainable (request : PredictionRequest) (c : string) (k : Z) :
  In c labels ->
  70 <= k <= 99 ->
  exists g resp w',
    predict request (startup g) = (Returned resp, w')
    /\ class (prediction resp) = c
    /\ confidence (prediction resp) = F64.literal (k # 100)
    /\ message resp =
         "Predicted class: " ++ c ++ " with " ++ F64.decimal k ++ ".0% confidence".
Proof.
  intros Hin Hk.
  assert (Hi : exists i,
            Random.choice labels (scripted [i; draw_for k]) =
              (Returned c,
               {| Random.entropy := fun n => nth n [i; draw_for k] 0%N;
                  Random.cursor := 1 |})).
  { unfold labels in Hin. cbn [In] in Hin.
    destruct Hin as [<- | [<- | [<- | [<- | [<- | []]]]]];
      [exists 0%N | exists 1%N | exists 2%N | exists 3%N | exists 4%N]; reflexivity. }
  destruct Hi as [i Hch].
  exists (scripted [i; draw_for k]).
  destruct (predict_eval request (startup (scripted [i; draw_for k])) eq_refl)
    as [c' [_ [Hc' Hrun]]].
  change (rng (startup (scripted [i; draw_for k]))) with (scripted [i; draw_for k])
    in Hc', Hrun.
  rewrite Hch in Hc', Hrun. cbn [fst] in Hc'. apply Returned_inj in Hc'. subst c'.
  cbn [snd] in Hrun.
  unfold Random.uniform, Random.random, Random.next in Hrun.
  cbn [Random.entropy Random.cursor nth fst snd] in Hrun.
  rewrite (draw_for_hits k Hk), (hundredths_percent k Hk), append_assoc in Hrun.
  do 2 eexists. split; [exact Hrun |].
  cbn [prediction class confidence message]. repeat split.
Qed.

(** The rabbit at 0.85. *)
Lemma every_outcome_is_attainable_witness :
  exists g resp w',
    predict {| input := "hello" |} (startup g) = (Returned resp, w')
    /\ class (prediction resp) = "rabbit"
    /\ confidence (prediction resp) = F64.literal (85 # 100)
    /\ message resp =
         "Predicted class: " ++ "rabbit" ++ " with " ++ F64.decimal 85 ++ ".0% confidence".
Proof.
  apply (every_outcome_is_attainable {| input := "hello" |} "rabbit" 85).
  - cbn. tauto.
  - lia.
Defined.

(** X10. The two services together: when the peer of the front service
    is the back service, that is when the call for [data] is answered 200
    with the JSON of what [/predict] returns for [{"input": data}],
    [/process] returns the success status, and under
    [model_prediction.prediction] the caller finds [input_length] equal to
    the length of the text it sent, a [class] among the five labels and a
    [confidence] written [0.kk] with [k] from 70 to 99, whose [k.0]% the
    [message] shows. *)
Theorem front_relays_back_prediction (w : service_a.world) (g : Random.state)
    (rs : list request) (d : string) (resp : PredictionResponse) :
  fst (predict {| input := d |} (after g rs)) = Returned resp ->
  service_a.network w (service_a.forward_call d) =
    service_a.PostReturns
      {| service_a.status_code := 200;
         service_a.json_method := Returned (PredictionResponse_json resp) |} ->
  exists out w' p c k,
    service_a.process_input
      {| service_a.data := d; service_a.forward_to_model := true |} w
      = (Returned out, w')
    /\ get out "status" = Some (JStr "Input logged successfully")
    /\ get out "model_prediction" = Some (PredictionResponse_json resp)
    /\ get (PredictionResponse_json resp) "prediction" = Some p
    /\ get p "input_length" = Some (JInt (len d))
    /\ get p "class" = Some (JStr c) /\ In c labels
    /\ get p "confidence" = Some (JFloat (F64.literal (k # 100))) /\ 70 <= k <= 99
    /\ get (PredictionResponse_json resp) "message" =
         Some (JStr ("Predicted class: " ++ c ++ " with "
                     ++ F64.decimal k ++ ".0% confidence")).
Proof.
  intros Hb Hn.
  destruct (predict_run {| input := d |} (after g rs) (after_classes g rs))
    as [c [u [wb' [Hin [Hlo [Hhi [_ Hrun]]]]]]].
  rewrite Hrun in Hb. cbn [fst] in Hb. apply Returned_inj in Hb. subst resp.
  destruct (round2_hundredths u Hlo Hhi) as [k [Hk Hr]].
  rewrite Hr, (hundredths_percent k Hk), append_assoc in Hn |- *.
  pose proof (process_input_relays w d _ _ Hn eq_refl) as Hrun_a.
  do 2 eexists. eexists. exists c, k.
  split; [exact Hrun_a |].
  cbn [input]. repeat split; try assumption; lia.
Qed.

(** The peer answers with what [/predict] returns first for "hello". *)
Lemma front_relays_back_prediction_witness :
  exists out w' p c k,
    service_a.process_input
      {| service_a.data := "hello"; service_a.forward_to_model := true |}
      (Sample.front
         (Sample.answering 200
            (PredictionResponse_json
               {| prediction := {| class := "cat";
                                   confidence := F64.literal (7 # 10);
                                   input_length := 5 |};
                  message := "Predicted class: cat with 70.0% confidence" |})))
      = (Returned out, w')
    /\ get out "status" = Some (JStr "Input logged successfully")
    /\ get out "model_prediction" =
         Some (PredictionResponse_json
                 {| prediction := {| class := "cat";
                                     confidence := F64.literal (7 # 10);
                                     input_length := 5 |};
                    message := "Predicted class: cat with 70.0% confidence" |})
    /\ get (PredictionResponse_json
              {| prediction := {| class := "cat";
                                  confidence := F64.literal (7 # 10);
                                  input_length := 5 |};
                 message := "Predicted class: cat with 70.0% confidence" |})
           "prediction" = Some p
    /\ get p "input_length" = Some (JInt (len "hello"))
    /\ get p "class" = Some (JStr c) /\ In c labels
    /\ get p "confidence" = Some (JFloat (F64.literal (k # 100))) /\ 70 <= k <= 99
    /\ get (PredictionResponse_json
              {| prediction := {| class := "cat";
                                  confidence := F64.literal (7 # 10);
                                  input_length := 5 |};
                 message := "Predicted class: cat with 70.0% confidence" |})
           "message" =
         Some (JStr ("Predicted class: " ++ c ++ " with "
                     ++ F64.decimal k ++ ".0% confidence")).
Proof.
  apply (front_relays_back_prediction
           (Sample.front
              (Sample.answering 200
                 (PredictionResponse_json
                    {| prediction := {| class := "cat";
                                        confidence := F64.literal (7 # 10);
                                        input_length := 5 |};
                       message := "Predicted class: cat with 70.0% confidence" |})))
           Sample.counting [] "hello").
  - vm_compute. reflexivity.
  - reflexivity.
Defined.

End Outcomes.
